(** * HostapdManager: start and stop of the hostapd service

    A shallow embedding of [libwifi_system/hostapd_manager.cpp].  The two
    methods [StartHostapd] and [StopHostapd] read the property
    [init.svc.hostapd], compare it with the C string functions, and may
    set one of the control properties [ctl.start] / [ctl.stop].

    The property store ([property_get], [property_set] of libcutils) and
    the logger belong to the platform: they are the operations of a small
    command monad, interpreted against an arbitrary world. *)

From Stdlib Require Import ZArith NArith Ascii String List Lia.
From stdpp Require Import base option list strings gmap.

Local Open Scope string_scope.
Local Open Scope Z_scope.

(** ** C strings *)

Module CString.

(** A [char] array is a [string]; what a C function sees of it stops at
    the first NUL (or at the end of the array, where [property_get] has
    put the terminator). *)

(** The value of a [char] read as [unsigned char]. *)
Definition uchar (c : ascii) : Z := Z.of_N (N_of_ascii c).

(** [*s]: the byte a pointer to the array points at. *)
Definition peek (s : string) : Z :=
  match s with
  | EmptyString => 0
  | String c _ => uchar c
  end.

(** [s + 1]. *)
Definition advance (s : string) : string :=
  match s with
  | EmptyString => EmptyString
  | String _ r => r
  end.

(** The C string held in the array. *)
Fixpoint c_str (s : string) : string :=
  match s with
  | EmptyString => EmptyString
  | String c r => if uchar c =? 0 then EmptyString else String c (c_str r)
  end.

(** [strlen]: the number of bytes before the terminator. *)
Fixpoint strlen (s : string) : N :=
  match s with
  | EmptyString => 0%N
  | String c r => if uchar c =? 0 then 0%N else N.succ (strlen r)
  end.

(** [strcmp]: walk both arrays while the bytes agree and are not NUL,
    then return the difference of the two bytes reached. *)
Fixpoint strcmp (s1 s2 : string) : Z :=
  match s1 with
  | EmptyString => 0 - peek s2
  | String c r =>
      if negb (uchar c =? 0) && (uchar c =? peek s2)
      then strcmp r (advance s2)
      else uchar c - peek s2
  end.

End CString.
Export CString.

(** ** The platform: property store and logger *)

(** [android-base/logging.h] severities used by the file. *)
Inductive LogSeverity : Type := DEBUG | ERROR.

(** Commands a method can issue.  Each constructor carries the
    continuation that receives what the platform answers:
    [property_get] fills the caller's buffer
    ([char hostapd_status[PROPERTY_VALUE_MAX]]; the length it returns is
    dropped by both methods), [property_set] returns an [int], kept as a
    [Z] since the methods only compare it with 0. *)
Inductive cmd (A : Type) : Type :=
| Ret (a : A)
| PropertyGet (key default_value : string) (k : string -> cmd A)
| PropertySet (key value : string) (k : Z -> cmd A)
| Log (severity : LogSeverity) (msg : string) (k : cmd A).

Arguments Ret {A} a.
Arguments PropertyGet {A} key default_value k.
Arguments PropertySet {A} key value k.
Arguments Log {A} severity msg k.

Fixpoint bind {A B : Type} (m : cmd A) (f : A -> cmd B) : cmd B :=
  match m with
  | Ret a => f a
  | PropertyGet key d k => PropertyGet key d (fun v => bind (k v) f)
  | PropertySet key v k => PropertySet key v (fun rc => bind (k rc) f)
  | Log sev msg k => Log sev msg (bind k f)
  end.

Definition property_get (key default_value : string) : cmd string :=
  PropertyGet key default_value Ret.

Definition property_set (key value : string) : cmd Z :=
  PropertySet key value Ret.

Definition LOG (severity : LogSeverity) (msg : string) : cmd unit :=
  Log severity msg (Ret tt).

(** [cmd] is a monad; stdpp's notations [x ← m; k] and [m;; k] sequence
    the statements of a method. *)
#[global] Instance cmd_ret : MRet cmd := fun A a => Ret a.
#[global] Instance cmd_bind : MBind cmd := fun A B f m => bind m f.

(** ** hostapd_manager.cpp *)

Definition kHostapdServiceName : string := "hostapd".
Definition kHostapdFullServiceName : string := "init.svc.hostapd".

Definition StartHostapd : cmd bool :=
  (* Check if hostapd already started *)
  hostapd_status ← property_get kHostapdFullServiceName "";
  if strcmp hostapd_status "running" =? 0 then
    LOG DEBUG "SoftAP already started. Skip another start";;
    mret true
  else
    rc ← property_set "ctl.start" kHostapdServiceName;
    if negb (rc =? 0) then
      LOG ERROR "Failed to start SoftAP";;
      mret false
    else
      LOG DEBUG "SoftAP started successfully";;
      mret true.

Definition StopHostapd : cmd bool :=
  LOG DEBUG "Stopping the SoftAP service...";;
  (* Check if hostapd already stopped *)
  hostapd_status ← property_get kHostapdFullServiceName "";
  if (strlen hostapd_status =? 0)%N || (strcmp hostapd_status "stopped" =? 0) then
    LOG DEBUG "SoftAP already stopped. Skip another stop";;
    mret true
  else
    rc ← property_set "ctl.stop" kHostapdServiceName;
    if rc <? 0 then
      LOG ERROR "Failed to stop hostapd service!";;
      mret false
    else
      LOG DEBUG "SoftAP stopped successfully";;
      mret true.

(** ** Worlds and traces *)

(** What a call did, in order, with what the platform answered. *)
Inductive action : Type :=
| AGet (key default_value reply : string)
| ASet (key value : string) (reply : Z)
| ALog (severity : LogSeverity) (msg : string).

(** A platform: a state, and how it answers each command. *)
Record World : Type := {
  wstate : Type;
  w_get : string -> string -> wstate -> string * wstate;
  w_set : string -> string -> wstate -> Z * wstate;
  w_log : LogSeverity -> string -> wstate -> wstate
}.

(** Running a method in a world: the result, the trace and the state the
    world is left in. *)
Fixpoint run {A : Type} (W : World) (m : cmd A) (s : wstate W)
  : A * list action * wstate W :=
  match m with
  | Ret a => (a, [], s)
  | PropertyGet key d k =>
      let '(v, s1) := w_get W key d s in
      let '(a, tr, s2) := run W (k v) s1 in
      (a, AGet key d v :: tr, s2)
  | PropertySet key v k =>
      let '(rc, s1) := w_set W key v s in
      let '(a, tr, s2) := run W (k rc) s1 in
      (a, ASet key v rc :: tr, s2)
  | Log sev msg k =>
      let '(a, tr, s2) := run W k (w_log W sev msg s) in
      (a, ALog sev msg :: tr, s2)
  end.

Definition result {A S : Type} (o : A * list action * S) : A := o.1.1.
Definition trace {A S : Type} (o : A * list action * S) : list action := o.1.2.
Definition final {A S : Type} (o : A * list action * S) : S := o.2.

(** Projections of a trace. *)
Definition reads (tr : list action) : list (string * string) :=
  omap (fun a => match a with AGet k d _ => Some (k, d) | _ => None end) tr.

Definition read_replies (tr : list action) : list string :=
  omap (fun a => match a with AGet _ _ v => Some v | _ => None end) tr.

Definition writes (tr : list action) : list (string * string) :=
  omap (fun a => match a with ASet k v _ => Some (k, v) | _ => None end) tr.

Definition write_results (tr : list action) : list Z :=
  omap (fun a => match a with ASet _ _ rc => Some rc | _ => None end) tr.

Definition logs (tr : list action) : list (LogSeverity * string) :=
  omap (fun a => match a with ALog sev msg => Some (sev, msg) | _ => None end) tr.

Definition is_log (a : action) : bool :=
  match a with ALog _ _ => true | _ => false end.

(** The trace without its log entries. *)
Definition strip_logs (tr : list action) : list action :=
  filter (fun a => is_log a = false) tr.

(** *** Two concrete worlds *)

(** A scripted platform: the status it reports and the result of every
    write are fixed in advance. *)
Definition scripted (status : string) (rc : Z) : World := {|
  wstate := unit;
  w_get := fun _ _ s => (status, s);
  w_set := fun _ _ s => (rc, s);
  w_log := fun _ _ s => s
|}.

(** An in-memory property store.  A read of an absent key yields the
    default; a write returns what [rc] dictates and, unless that is a
    failure (negative), records the value under its key. *)
Definition store (rc : string -> string -> Z) : World := {|
  wstate := gmap string string;
  w_get := fun key d m => (default d (m !! key), m);
  w_set := fun key v m =>
    let r := rc key v in (r, if r <? 0 then m else <[key := v]> m);
  w_log := fun _ _ m => m
|}.

(** What the store holds after a trace: every write that did not fail is
    recorded under its key. *)
Definition replay (tr : list action) (m : gmap string string)
  : gmap string string :=
  foldl (fun m a =>
           match a with
           | ASet key v r => if r <? 0 then m else <[key := v]> m
           | _ => m
           end) m tr.

(** ** The two operations side by side *)

Inductive operation : Type := Start | Stop.

Definition method (op : operation) : cmd bool :=
  match op with
  | Start => StartHostapd
  | Stop => StopHostapd
  end.

Definition opposite (op : operation) : operation :=
  match op with
  | Start => Stop
  | Stop => Start
  end.

(** The control property a method sets. *)
Definition control_key (op : operation) : string :=
  match op with
  | Start => "ctl.start"
  | Stop => "ctl.stop"
  end.

(** The status under which a method has nothing to do. *)
Definition terminal_state (op : operation) (status : string) : Prop :=
  match op with
  | Start => c_str status = "running"
  | Stop => c_str status = "stopped" \/ c_str status = ""
  end.

(** The test a method applies to what [property_set] returned:
    [!= 0] in [StartHostapd], [< 0] in [StopHostapd]. *)
Definition write_failed (op : operation) (rc : Z) : bool :=
  match op with
  | Start => negb (rc =? 0)
  | Stop => rc <? 0
  end.

(** ** The paths through each method *)

(** Result and trace of the three ways [StartHostapd] can go. *)
Inductive StartHostapd_path : bool -> list action -> Prop :=
| start_skipped status :
    c_str status = "running" ->
    StartHostapd_path true
      [AGet kHostapdFullServiceName "" status;
       ALog DEBUG "SoftAP already started. Skip another start"]
| start_failed status rc :
    c_str status <> "running" -> rc <> 0 ->
    StartHostapd_path false
      [AGet kHostapdFullServiceName "" status;
       ASet "ctl.start" kHostapdServiceName rc;
       ALog ERROR "Failed to start SoftAP"]
| start_done status :
    c_str status <> "running" ->
    StartHostapd_path true
      [AGet kHostapdFullServiceName "" status;
       ASet "ctl.start" kHostapdServiceName 0;
       ALog DEBUG "SoftAP started successfully"].

(** Result and trace of the three ways [StopHostapd] can go. *)
Inductive StopHostapd_path : bool -> list action -> Prop :=
| stop_skipped status :
    c_str status = "" \/ c_str status = "stopped" ->
    StopHostapd_path true
      [ALog DEBUG "Stopping the SoftAP service...";
       AGet kHostapdFullServiceName "" status;
       ALog DEBUG "SoftAP already stopped. Skip another stop"]
| stop_failed status rc :
    c_str status <> "" -> c_str status <> "stopped" -> rc < 0 ->
    StopHostapd_path false
      [ALog DEBUG "Stopping the SoftAP service...";
       AGet kHostapdFullServiceName "" status;
       ASet "ctl.stop" kHostapdServiceName rc;
       ALog ERROR "Failed to stop hostapd service!"]
| stop_done status rc :
    c_str status <> "" -> c_str status <> "stopped" -> 0 <= rc ->
    StopHostapd_path true
      [ALog DEBUG "Stopping the SoftAP service...";
       AGet kHostapdFullServiceName "" status;
       ASet "ctl.stop" kHostapdServiceName rc;
       ALog DEBUG "SoftAP stopped successfully"].

(** * Properties *)

(** ** C strings *)

Section CStringFacts.

Lemma uchar_inj c d : uchar c = uchar d -> c = d.
Proof.
  unfold uchar. intros H. apply N2Z.inj in H.
  rewrite <- (ascii_N_embedding c), <- (ascii_N_embedding d).
  now f_equal.
Qed.

Lemma uchar_nonneg c : 0 <= uchar c.
Proof. unfold uchar. lia. Qed.

Lemma strlen_c_str s : strlen s = 0%N <-> c_str s = "".
Proof.
  destruct s as [|c r]; simpl; [easy|].
  destruct (uchar c =? 0); [easy|]. split; [lia | discriminate].
Qed.

Lemma strlen_length s : strlen s = N.of_nat (String.length (c_str s)).
Proof.
  induction s as [|c r IH]; simpl; [easy|].
  destruct (uchar c =? 0); simpl; [easy|]. rewrite IH. lia.
Qed.

(** [strcmp] returns zero exactly when both arrays hold the same C
    string. *)
Lemma strcmp_c_str s1 : forall s2, strcmp s1 s2 = 0 <-> c_str s1 = c_str s2.
Proof.
  induction s1 as [|c r IH]; intros [|d r2]; simpl.
  - easy.
  - destruct (Z.eqb_spec (uchar d) 0) as [E|E]; [rewrite E; easy|].
    split; [lia | discriminate].
  - destruct (Z.eqb_spec (uchar c) 0) as [E|E]; simpl; [rewrite E; easy|].
    split; [lia | discriminate].
  - destruct (Z.eqb_spec (uchar c) 0) as [E|E]; simpl.
    + rewrite E. destruct (Z.eqb_spec (uchar d) 0) as [F|F].
      * rewrite F. easy.
      * split; [lia | discriminate].
    + destruct (Z.eqb_spec (uchar c) (uchar d)) as [F|F].
      * apply uchar_inj in F as <-.
        destruct (Z.eqb_spec (uchar c) 0); [contradiction|].
        rewrite IH. split; [now intros -> | now intros [= ->]].
      * split; [lia|].
        destruct (uchar d =? 0); [discriminate|]. intros [= -> _]. now destruct F.
Qed.

Lemma strcmp_eqb s1 s2 :
  (strcmp s1 s2 =? 0) = true <-> c_str s1 = c_str s2.
Proof. rewrite Z.eqb_eq. apply strcmp_c_str. Qed.

Lemma strcmp_neqb s1 s2 :
  (strcmp s1 s2 =? 0) = false <-> c_str s1 <> c_str s2.
Proof. rewrite Z.eqb_neq, strcmp_c_str. easy. Qed.

(** The test of [StopHostapd]: empty, or equal to "stopped". *)
Lemma stopped_test status :
  ((strlen status =? 0)%N || (strcmp status "stopped" =? 0)) = true
  <-> c_str status = "" \/ c_str status = "stopped".
Proof.
  rewrite orb_true_iff, N.eqb_eq, strlen_c_str, strcmp_eqb. easy.
Qed.

(** An array without NUL holds itself. *)
Lemma c_str_idemp s : c_str (c_str s) = c_str s.
Proof.
  induction s as [|c r IH]; simpl; [easy|].
  destruct (uchar c =? 0) eqn:E; simpl; [easy|]. now rewrite E, IH.
Qed.

End CStringFacts.

(** ** Sequencing *)

Lemma bind_ret_l {A B : Type} (a : A) (f : A -> cmd B) : bind (Ret a) f = f a.
Proof. reflexivity. Qed.

(** Running [m] and then [f]: the traces follow each other and the world
    state is threaded through. *)
Lemma run_bind (W : World) {A B : Type} (m : cmd A) (f : A -> cmd B) :
  forall s : wstate W,
    run W (bind m f) s
    = let '(a, tr1, s1) := run W m s in
      let '(b, tr2, s2) := run W (f a) s1 in
      (b, (tr1 ++ tr2)%list, s2).
Proof.
  induction m as [a | key d k IH | key v k IH | sev msg k IH]; intros s; cbn.
  - now destruct (run W (f a) s) as [[b tr2] s2].
  - destruct (w_get W key d s) as [v s1]. rewrite IH.
    destruct (run W (k v) s1) as [[a tr1] s2].
    now destruct (run W (f a) s2) as [[b tr2] s3].
  - destruct (w_set W key v s) as [rc s1]. rewrite IH.
    destruct (run W (k rc) s1) as [[a tr1] s2].
    now destruct (run W (f a) s2) as [[b tr2] s3].
  - rewrite IH.
    destruct (run W k (w_log W sev msg s)) as [[a tr1] s2].
    now destruct (run W (f a) s2) as [[b tr2] s3].
Qed.

(** ** Every run follows one of the paths *)

Lemma StartHostapd_runs (W : World) (s : wstate W) :
  StartHostapd_path (result (run W StartHostapd s)) (trace (run W StartHostapd s)).
Proof.
  unfold StartHostapd, property_get, property_set, LOG, result, trace. cbn.
  destruct (w_get W _ _ s) as [status s1]. cbn.
  destruct (strcmp status "running" =? 0) eqn:Hcmp; cbn.
  - apply start_skipped. now apply strcmp_eqb in Hcmp.
  - apply strcmp_neqb in Hcmp.
    destruct (w_set W _ _ s1) as [rc s2]. cbn.
    destruct (Z.eqb_spec rc 0) as [-> | Hrc]; cbn.
    + now apply start_done.
    + now apply start_failed.
Qed.

Lemma StopHostapd_runs (W : World) (s : wstate W) :
  StopHostapd_path (result (run W StopHostapd s)) (trace (run W StopHostapd s)).
Proof.
  unfold StopHostapd, property_get, property_set, LOG, result, trace. cbn.
  destruct (w_get W _ _ _) as [status s1]. cbn.
  destruct ((strlen status =? 0)%N || (strcmp status "stopped" =? 0)) eqn:Htest; cbn.
  - apply stop_skipped. now apply stopped_test.
  - assert (Hne : ~ (c_str status = "" \/ c_str status = "stopped")).
    { rewrite <- stopped_test, Htest. discriminate. }
    destruct (w_set W _ _ s1) as [rc s2]. cbn.
    destruct (Z.ltb_spec rc 0); cbn.
    + apply stop_failed; tauto.
    + apply stop_done; tauto.
Qed.

(** Replace result and trace of the run in the goal by those of each
    path. *)
Ltac by_paths :=
  lazymatch goal with
  | |- context [run ?W StartHostapd ?s] =>
      generalize (StartHostapd_runs W s);
      generalize (result (run W StartHostapd s)) (trace (run W StartHostapd s));
      intros ? ? [? ? | ? ? ? ? | ? ?]
  | |- context [run ?W StopHostapd ?s] =>
      generalize (StopHostapd_runs W s);
      generalize (result (run W StopHostapd s)) (trace (run W StopHostapd s));
      intros ? ? [? ? | ? ? ? ? ? | ? ? ? ? ?]
  end.

(** ** StartHostapd *)

(** C3: whenever the status read yields exactly "running", StartHostapd
    returns true and sets no property, whatever the world would have
    answered to a write. *)
Theorem StartHostapd_running_is_noop (W : World) (s : wstate W) (status : string) :
  read_replies (trace (run W StartHostapd s)) = [status] ->
  c_str status = "running" ->
  result (run W StartHostapd s) = true /\
  writes (trace (run W StartHostapd s)) = [].
Proof. by_paths; cbn; intros [= <-] ?; easy. Qed.

Lemma StartHostapd_running_is_noop_witness :
  read_replies (trace (run (scripted "running" (-1)) StartHostapd tt)) = ["running"] /\
  c_str "running" = "running" /\
  result (run (scripted "running" (-1)) StartHostapd tt) = true /\
  writes (trace (run (scripted "running" (-1)) StartHostapd tt)) = [].
Proof.
  split; [reflexivity|]. split; [reflexivity|].
  apply (StartHostapd_running_is_noop (scripted "running" (-1)) tt "running");
    reflexivity.
Defined.

(** C2: for every status other than "running" (so also "stopped", the
    empty string and anything in between), StartHostapd sets ctl.start
    exactly once, and returns true if and only if that write returned
    zero; on a non-zero result it returns false. *)
Theorem StartHostapd_forward (W : World) (s : wstate W) (status : string) :
  read_replies (trace (run W StartHostapd s)) = [status] ->
  c_str status <> "running" ->
  exists rc : Z,
    writes (trace (run W StartHostapd s)) = [("ctl.start", "hostapd")] /\
    write_results (trace (run W StartHostapd s)) = [rc] /\
    (result (run W StartHostapd s) = true <-> rc = 0) /\
    (rc <> 0 -> result (run W StartHostapd s) = false).
Proof.
  by_paths; cbn; intros [= <-] ?; try contradiction.
  - eexists; repeat split; try reflexivity; intros; congruence.
  - exists 0; repeat split; try reflexivity; intros; congruence.
Qed.

Lemma StartHostapd_forward_witness :
  read_replies (trace (run (scripted "stopped" 7) StartHostapd tt)) = ["stopped"] /\
  c_str "stopped" <> "running" /\
  exists rc : Z,
    writes (trace (run (scripted "stopped" 7) StartHostapd tt)) = [("ctl.start", "hostapd")] /\
    write_results (trace (run (scripted "stopped" 7) StartHostapd tt)) = [rc] /\
    (result (run (scripted "stopped" 7) StartHostapd tt) = true <-> rc = 0) /\
    (rc <> 0 -> result (run (scripted "stopped" 7) StartHostapd tt) = false).
Proof.
  split; [reflexivity|]. split; [discriminate|].
  apply (StartHostapd_forward (scripted "stopped" 7) tt "stopped");
    [reflexivity | discriminate].
Defined.

(** ** StopHostapd *)

(** C1, as stated, fails: with status "running" and a write that returns
    1, StopHostapd sets ctl.stop once and returns true although the
    write result is not zero. *)
Lemma StopHostapd_positive_result_counterexample :
  let o := run (scripted "running" 1) StopHostapd tt in
  read_replies (trace o) = ["running"] /\
  c_str "running" <> "stopped" /\ c_str "running" <> "" /\
  writes (trace o) = [("ctl.stop", "hostapd")] /\
  write_results (trace o) = [1] /\
  result o = true /\
  ~ (result o = true <-> 1 = 0).
Proof.
  cbv zeta. repeat split; try reflexivity; try discriminate.
  intros [H _]. specialize (H eq_refl). discriminate.
Qed.

(** C1 (amended): for every status other than "stopped" and other than
    the empty string, StopHostapd sets ctl.stop exactly once, and returns
    true if and only if that write returned a non-negative value; it
    returns false exactly when the result is negative. *)
Theorem StopHostapd_forward (W : World) (s : wstate W) (status : string) :
  read_replies (trace (run W StopHostapd s)) = [status] ->
  c_str status <> "stopped" ->
  c_str status <> "" ->
  exists rc : Z,
    writes (trace (run W StopHostapd s)) = [("ctl.stop", "hostapd")] /\
    write_results (trace (run W StopHostapd s)) = [rc] /\
    (result (run W StopHostapd s) = true <-> 0 <= rc) /\
    (result (run W StopHostapd s) = false <-> rc < 0).
Proof.
  by_paths; cbn; intros [= <-] ? ?; try tauto;
    eexists; repeat split; try reflexivity; intros; (congruence || lia).
Qed.

Lemma StopHostapd_forward_witness :
  read_replies (trace (run (scripted "running" (-1)) StopHostapd tt)) = ["running"] /\
  c_str "running" <> "stopped" /\
  c_str "running" <> "" /\
  exists rc : Z,
    writes (trace (run (scripted "running" (-1)) StopHostapd tt)) = [("ctl.stop", "hostapd")] /\
    write_results (trace (run (scripted "running" (-1)) StopHostapd tt)) = [rc] /\
    (result (run (scripted "running" (-1)) StopHostapd tt) = true <-> 0 <= rc) /\
    (result (run (scripted "running" (-1)) StopHostapd tt) = false <-> rc < 0).
Proof.
  split; [reflexivity|]. split; [discriminate|]. split; [discriminate|].
  apply (StopHostapd_forward (scripted "running" (-1)) tt "running");
    [reflexivity | discriminate | discriminate].
Defined.

(** C4: whenever the status read yields exactly "stopped" or the empty
    string (the default handed to the read, so also when the property is
    absent), StopHostapd returns true and sets no property; nothing is
    logged at error level. *)
Theorem StopHostapd_stopped_is_noop (W : World) (s : wstate W) (status : string) :
  read_replies (trace (run W StopHostapd s)) = [status] ->
  c_str status = "stopped" \/ c_str status = "" ->
  result (run W StopHostapd s) = true /\
  writes (trace (run W StopHostapd s)) = [] /\
  Forall (fun entry => entry.1 = DEBUG) (logs (trace (run W StopHostapd s))).
Proof.
  by_paths; cbn; intros [= <-] ?; try tauto.
  repeat split; repeat constructor.
Qed.

(** The property is absent from the store: the read yields the default. *)
Lemma StopHostapd_stopped_is_noop_witness :
  (∅ : gmap string string) !! kHostapdFullServiceName = None /\
  read_replies (trace (run (store (fun _ _ => 0)) StopHostapd ∅)) = [""] /\
  (c_str "" = "stopped" \/ c_str "" = "") /\
  result (run (store (fun _ _ => 0)) StopHostapd ∅) = true /\
  writes (trace (run (store (fun _ _ => 0)) StopHostapd ∅)) = [] /\
  Forall (fun entry => entry.1 = DEBUG)
    (logs (trace (run (store (fun _ _ => 0)) StopHostapd ∅))).
Proof.
  split; [reflexivity|]. split; [reflexivity|]. split; [right; reflexivity|].
  apply (StopHostapd_stopped_is_noop (store (fun _ _ => 0)) ∅ "");
    [reflexivity | right; reflexivity].
Defined.

(** ** Both methods *)

(** C5: no call sets the control property of a service already seen in
    the requested state: StartHostapd does not set ctl.start when the
    status read is "running", StopHostapd does not set ctl.stop when it
    is "stopped" or empty. *)
Theorem no_command_in_terminal_state
    (op : operation) (W : World) (s : wstate W) (status : string) :
  read_replies (trace (run W (method op) s)) = [status] ->
  terminal_state op status ->
  control_key op ∉ (writes (trace (run W (method op) s))).*1.
Proof.
  destruct op; cbn [method terminal_state control_key];
    by_paths; cbn; intros [= <-] ?; try tauto; apply not_elem_of_nil.
Qed.

Lemma no_command_in_terminal_state_witness :
  ("ctl.start" ∉ (writes (trace (run (scripted "running" 0) StartHostapd tt))).*1) /\
  ("ctl.stop" ∉ (writes (trace (run (scripted "stopped" 0) StopHostapd tt))).*1) /\
  ("ctl.stop" ∉ (writes (trace (run (scripted "" 0) StopHostapd tt))).*1).
Proof.
  split; [|split].
  - apply (no_command_in_terminal_state Start (scripted "running" 0) tt "running");
      reflexivity.
  - apply (no_command_in_terminal_state Stop (scripted "stopped" 0) tt "stopped");
      [reflexivity | left; reflexivity].
  - apply (no_command_in_terminal_state Stop (scripted "" 0) tt "");
      [reflexivity | right; reflexivity].
Defined.

(** C6: whatever the status read and whatever the result of the write,
    one call sets at most one property; apart from log entries, its
    trace is the status read, followed by that write when it is taken. *)
Theorem at_most_one_write (op : operation) (W : World) (s : wstate W) :
  (length (writes (trace (run W (method op) s))) <= 1)%nat /\
  exists status : string,
    strip_logs (trace (run W (method op) s))
      = [AGet kHostapdFullServiceName "" status] \/
    exists rc : Z,
      strip_logs (trace (run W (method op) s))
        = [AGet kHostapdFullServiceName "" status;
           ASet (control_key op) kHostapdServiceName rc].
Proof.
  destruct op; cbn [method control_key]; by_paths; cbn;
    (split; [lia | eexists; first [left; reflexivity | right; eexists; reflexivity]]).
Qed.

(** C7: the property a method sets is fixed: StartHostapd sets ctl.start
    to "hostapd", StopHostapd sets ctl.stop to "hostapd".  With an unset
    status and a write that succeeds, StartHostapd makes that write and
    returns true; with status "running" and a write that fails,
    StopHostapd makes its write and returns false. *)
Theorem control_write_is_fixed (W : World) (s : wstate W) :
  Forall (fun kv => kv = ("ctl.start", "hostapd"))
    (writes (trace (run W StartHostapd s))) /\
  Forall (fun kv => kv = ("ctl.stop", "hostapd"))
    (writes (trace (run W StopHostapd s))) /\
  (let b := run (scripted "" 0) StartHostapd tt in
   writes (trace b) = [("ctl.start", "hostapd")] /\ result b = true) /\
  (let d := run (scripted "running" (-1)) StopHostapd tt in
   writes (trace d) = [("ctl.stop", "hostapd")] /\ result d = false).
Proof.
  split; [|split; [|split]].
  - by_paths; cbn; repeat constructor.
  - by_paths; cbn; repeat constructor.
  - split; reflexivity.
  - split; reflexivity.
Qed.

(** The in-memory store ends in the state its trace describes. *)
Lemma store_final (rc : string -> string -> Z) {A : Type} (p : cmd A) :
  forall m : gmap string string,
    final (run (store rc) p m) = replay (trace (run (store rc) p m)) m.
Proof.
  induction p as [a | key d k IH | key v k IH | sev msg k IH]; intros m; cbn.
  - reflexivity.
  - specialize (IH (default d (m !! key)) m).
    destruct (run (store rc) (k _) m) as [[a tr] m2]. exact IH.
  - set (m1 := if rc key v <? 0 then m else <[key := v]> m) in *.
    specialize (IH (rc key v) m1).
    destruct (run (store rc) (k _) m1) as [[a tr] m2]. exact IH.
  - specialize (IH m).
    destruct (run (store rc) k m) as [[a tr] m2]. exact IH.
Qed.

(** C8: a method sets no property other than its own control property:
    not the status property init.svc.hostapd, not the control property
    of the other method.  In the in-memory store the status property has
    the same value after the call as before. *)
Theorem only_own_control_key
    (op : operation) (W : World) (s : wstate W)
    (rc : string -> string -> Z) (m : gmap string string) :
  Forall (fun kv => kv.1 = control_key op)
    (writes (trace (run W (method op) s))) /\
  (kHostapdFullServiceName ∉ (writes (trace (run W (method op) s))).*1) /\
  (control_key (opposite op) ∉ (writes (trace (run W (method op) s))).*1) /\
  final (run (store rc) (method op) m) !! kHostapdFullServiceName
    = m !! kHostapdFullServiceName.
Proof.
  split_and!.
  - destruct op; cbn [method control_key]; by_paths; cbn; repeat constructor.
  - destruct op; cbn [method]; by_paths; cbn;
      repeat (apply not_elem_of_cons; split; [discriminate|]); apply not_elem_of_nil.
  - destruct op; cbn [method opposite control_key]; by_paths; cbn;
      repeat (apply not_elem_of_cons; split; [discriminate|]); apply not_elem_of_nil.
  - rewrite store_final.
    destruct op; cbn [method]; by_paths; cbn;
      repeat case_match; rewrite ?lookup_insert_ne; done.
Qed.

(** C9: both methods are deterministic in the status string and the
    write result.  The status string is the C string the read leaves in
    the buffer: two calls of the same method, in any two worlds, whose
    buffers hold the same C string (the bytes behind its terminator may
    differ) and whose writes, where both make one, return the same
    result, return the same boolean and set the same properties in the
    same order.  A method that compared the buffers byte for byte would
    not satisfy this. *)
Theorem same_status_same_outcome
    (op : operation) (W1 W2 : World) (s1 : wstate W1) (s2 : wstate W2)
    (status1 status2 : string) :
  read_replies (trace (run W1 (method op) s1)) = [status1] ->
  read_replies (trace (run W2 (method op) s2)) = [status2] ->
  c_str status1 = c_str status2 ->
  (forall r1 r2 : Z,
      write_results (trace (run W1 (method op) s1)) = [r1] ->
      write_results (trace (run W2 (method op) s2)) = [r2] ->
      r1 = r2) ->
  result (run W1 (method op) s1) = result (run W2 (method op) s2) /\
  writes (trace (run W1 (method op) s1)) = writes (trace (run W2 (method op) s2)).
Proof.
  destruct op; cbn [method]; by_paths; by_paths; cbn;
    intros [= <-] [= <-] Hstatus Hres;
    try (exfalso; intuition congruence);
    try (specialize (Hres _ _ eq_refl eq_refl); exfalso; (lia || congruence));
    split; reflexivity.
Qed.

(** A scripted world against an in-memory store whose status value
    carries bytes behind the terminator; both writes return 5. *)
Lemma same_status_same_outcome_witness :
  c_str "running" = c_str ("running" +:+ String "000" "-old") /\
  result (run (scripted "running" 5) StopHostapd tt)
    = result (run (store (fun _ _ => 5)) StopHostapd
                {[ "init.svc.hostapd" := "running" +:+ String "000" "-old" ]}) /\
  writes (trace (run (scripted "running" 5) StopHostapd tt))
    = writes (trace (run (store (fun _ _ => 5)) StopHostapd
                       {[ "init.svc.hostapd" := "running" +:+ String "000" "-old" ]})).
Proof.
  split; [reflexivity|].
  apply (same_status_same_outcome Stop (scripted "running" 5) (store (fun _ _ => 5))
           tt {[ "init.svc.hostapd" := "running" +:+ String "000" "-old" ]}
           "running" ("running" +:+ String "000" "-old")).
  - reflexivity.
  - reflexivity.
  - reflexivity.
  - intros r1 r2 [= <-] [= <-]. reflexivity.
Defined.

(** C10: every call makes exactly one property read, of the key
    init.svc.hostapd with the empty string as default, and nothing is
    set before that read. *)
Theorem one_status_read_first (op : operation) (W : World) (s : wstate W) :
  reads (trace (run W (method op) s)) = [(kHostapdFullServiceName, "")] /\
  exists (pre : list action) (status : string) (post : list action),
    trace (run W (method op) s)
      = (pre ++ AGet kHostapdFullServiceName "" status :: post)%list /\
    writes pre = [] /\ reads pre = [] /\ reads post = [].
Proof.
  destruct op; cbn [method]; by_paths; cbn; (split; [reflexivity|]).
  1-3: eexists [], _, _; split_and!; reflexivity.
  all: eexists [_], _, _; split_and!; reflexivity.
Qed.

(** ** What the log tells *)

(** X1: a call returns false exactly when it has logged an entry at
    error level. *)
Theorem failure_is_logged_as_error (op : operation) (W : World) (s : wstate W) :
  result (run W (method op) s) = false
  <-> ERROR ∈ (logs (trace (run W (method op) s))).*1.
Proof.
  destruct op; cbn [method]; by_paths; cbn;
    rewrite ?elem_of_cons, ?elem_of_nil; intuition (discriminate || auto).
Qed.

(** X2: the message a call ends with names the path it took.  The "skip"
    message is logged exactly when no property is set, the "successfully"
    message exactly when one is set and the call returns true. *)
Theorem log_message_names_the_path (W : World) (s : wstate W) :
  ((DEBUG, "SoftAP already started. Skip another start")
     ∈ logs (trace (run W StartHostapd s))
   <-> writes (trace (run W StartHostapd s)) = []) /\
  ((DEBUG, "SoftAP started successfully")
     ∈ logs (trace (run W StartHostapd s))
   <-> writes (trace (run W StartHostapd s)) <> []
       /\ result (run W StartHostapd s) = true) /\
  ((DEBUG, "SoftAP already stopped. Skip another stop")
     ∈ logs (trace (run W StopHostapd s))
   <-> writes (trace (run W StopHostapd s)) = []) /\
  ((DEBUG, "SoftAP stopped successfully")
     ∈ logs (trace (run W StopHostapd s))
   <-> writes (trace (run W StopHostapd s)) <> []
       /\ result (run W StopHostapd s) = true).
Proof.
  split_and!; by_paths; cbn;
    rewrite ?elem_of_cons, ?elem_of_nil; intuition (discriminate || auto).
Qed.

(** X3: StartHostapd logs once and StopHostapd twice, on every path.
    StopHostapd announces itself before it reads the status; the last
    thing either method does is to log how the call went. *)
Theorem log_entries_per_call (W : World) (s : wstate W) :
  length (logs (trace (run W StartHostapd s))) = 1%nat /\
  length (logs (trace (run W StopHostapd s))) = 2%nat /\
  head (trace (run W StopHostapd s))
    = Some (ALog DEBUG "Stopping the SoftAP service...") /\
  is_log <$> last (trace (run W StartHostapd s)) = Some true /\
  is_log <$> last (trace (run W StopHostapd s)) = Some true.
Proof. split_and!; by_paths; reflexivity. Qed.

(** ** What a failure means *)

(** X4: a call that returns false has set its control property exactly
    once, and the result of that write failed the method's test (non-zero
    for StartHostapd, negative for StopHostapd).  Nothing else makes a
    call fail. *)
Theorem failure_means_rejected_write
    (op : operation) (W : World) (s : wstate W) :
  result (run W (method op) s) = false ->
  exists rc : Z,
    writes (trace (run W (method op) s)) = [(control_key op, kHostapdServiceName)] /\
    write_results (trace (run W (method op) s)) = [rc] /\
    write_failed op rc = true.
Proof.
  destruct op; cbn [method control_key write_failed]; by_paths; cbn;
    intros; try discriminate; eexists; split_and!; try reflexivity.
  - now apply negb_true_iff, Z.eqb_neq.
  - now apply Z.ltb_lt.
Qed.

Lemma failure_means_rejected_write_witness :
  (result (run (scripted "stopped" 3) StartHostapd tt) = false /\
   exists rc : Z,
     writes (trace (run (scripted "stopped" 3) StartHostapd tt))
       = [("ctl.start", kHostapdServiceName)] /\
     write_results (trace (run (scripted "stopped" 3) StartHostapd tt)) = [rc] /\
     negb (rc =? 0) = true) /\
  (result (run (scripted "running" (-1)) StopHostapd tt) = false /\
   exists rc : Z,
     writes (trace (run (scripted "running" (-1)) StopHostapd tt))
       = [("ctl.stop", kHostapdServiceName)] /\
     write_results (trace (run (scripted "running" (-1)) StopHostapd tt)) = [rc] /\
     (rc <? 0) = true).
Proof.
  split; (split; [reflexivity|]).
  - apply (failure_means_rejected_write Start (scripted "stopped" 3) tt). reflexivity.
  - apply (failure_means_rejected_write Stop (scripted "running" (-1)) tt). reflexivity.
Defined.

(** X6: StartHostapd and StopHostapd judge the result of their write
    differently.  Given the same result, the two calls return the same
    boolean exactly when that result is not positive: a positive result
    makes StartHostapd fail and StopHostapd succeed. *)
Theorem start_and_stop_agree_up_to_zero
    (W1 W2 : World) (s1 : wstate W1) (s2 : wstate W2) (rc : Z) :
  write_results (trace (run W1 StartHostapd s1)) = [rc] ->
  write_results (trace (run W2 StopHostapd s2)) = [rc] ->
  (result (run W1 StartHostapd s1) = result (run W2 StopHostapd s2) <-> rc <= 0).
Proof.
  by_paths; by_paths; cbn; intros [= ?] [= ?]; subst;
    split; intros; first [reflexivity | discriminate | lia].
Qed.

Lemma start_and_stop_agree_up_to_zero_witness :
  write_results (trace (run (scripted "restarting" 1) StartHostapd tt)) = [1] /\
  write_results (trace (run (scripted "restarting" 1) StopHostapd tt)) = [1] /\
  (result (run (scripted "restarting" 1) StartHostapd tt)
     = result (run (scripted "restarting" 1) StopHostapd tt) <-> 1 <= 0).
Proof.
  split; [reflexivity|]. split; [reflexivity|].
  apply (start_and_stop_agree_up_to_zero
           (scripted "restarting" 1) (scripted "restarting" 1) tt tt 1);
    reflexivity.
Defined.

(** ** What a method sees of the buffer *)

(** X5: only the C string in the status buffer counts.  Two calls whose
    buffers hold the same bytes up to the first NUL, whatever follows it,
    and whose writes (where both make one) return the same result, return
    the same boolean, set the same properties and log the same entries. *)
Theorem bytes_after_nul_are_ignored
    (op : operation) (W1 W2 : World) (s1 : wstate W1) (s2 : wstate W2)
    (buf1 buf2 : string) :
  read_replies (trace (run W1 (method op) s1)) = [buf1] ->
  read_replies (trace (run W2 (method op) s2)) = [buf2] ->
  c_str buf1 = c_str buf2 ->
  (forall r1 r2 : Z,
      write_results (trace (run W1 (method op) s1)) = [r1] ->
      write_results (trace (run W2 (method op) s2)) = [r2] ->
      r1 = r2) ->
  result (run W1 (method op) s1) = result (run W2 (method op) s2) /\
  writes (trace (run W1 (method op) s1)) = writes (trace (run W2 (method op) s2)) /\
  logs (trace (run W1 (method op) s1)) = logs (trace (run W2 (method op) s2)).
Proof.
  destruct op; cbn [method]; by_paths; by_paths; cbn;
    intros [= <-] [= <-] Hbuf Hres;
    try (exfalso; intuition congruence);
    try (specialize (Hres _ _ eq_refl eq_refl); exfalso; (lia || congruence));
    split_and!; reflexivity.
Qed.

Lemma bytes_after_nul_are_ignored_witness :
  result (run (scripted "stopped" 0) StopHostapd tt)
    = result (run (scripted ("stopped" +:+ String "000" "ning") 0) StopHostapd tt) /\
  writes (trace (run (scripted "stopped" 0) StopHostapd tt))
    = writes (trace (run (scripted ("stopped" +:+ String "000" "ning") 0) StopHostapd tt)) /\
  logs (trace (run (scripted "stopped" 0) StopHostapd tt))
    = logs (trace (run (scripted ("stopped" +:+ String "000" "ning") 0) StopHostapd tt)).
Proof.
  apply (bytes_after_nul_are_ignored Stop
           (scripted "stopped" 0) (scripted ("stopped" +:+ String "000" "ning") 0)
           tt tt "stopped" ("stopped" +:+ String "000" "ning")).
  - reflexivity.
  - reflexivity.
  - reflexivity.
  - intros r1 r2 [=].
Defined.

(** ** An absent status property *)

(** X7: in a property store that holds no init.svc.hostapd, the read
    yields the default, the empty string.  StartHostapd then sets
    ctl.start and returns true exactly when that write returns zero;
    StopHostapd sets nothing, returns true and leaves the store as it
    was. *)
Theorem absent_status_property
    (rc : string -> string -> Z) (m : gmap string string) :
  m !! kHostapdFullServiceName = None ->
  writes (trace (run (store rc) StartHostapd m)) = [("ctl.start", kHostapdServiceName)] /\
  (result (run (store rc) StartHostapd m) = true
   <-> rc "ctl.start" kHostapdServiceName = 0) /\
  writes (trace (run (store rc) StopHostapd m)) = [] /\
  result (run (store rc) StopHostapd m) = true /\
  final (run (store rc) StopHostapd m) = m.
Proof.
  intros Habsent.
  unfold StartHostapd, StopHostapd, property_get, property_set, LOG,
    result, trace, final.
  cbn -[strcmp strlen]. rewrite Habsent. cbn -[strcmp strlen].
  change (strcmp "" "running" =? 0) with false.
  change ((strlen "" =? 0)%N || (strcmp "" "stopped" =? 0)) with true.
  cbn.
  destruct (Z.eqb_spec (rc "ctl.start" kHostapdServiceName) 0) as [E|E]; cbn;
    split_and!; try reflexivity; split; intros; congruence.
Qed.

Lemma absent_status_property_witness :
  ({[ "ro.product.name" := "phone" ]} : gmap string string)
    !! kHostapdFullServiceName = None /\
  writes (trace (run (store (fun _ _ => -1)) StartHostapd
                   {[ "ro.product.name" := "phone" ]}))
    = [("ctl.start", kHostapdServiceName)] /\
  (result (run (store (fun _ _ => -1)) StartHostapd
             {[ "ro.product.name" := "phone" ]}) = true
   <-> -1 = 0) /\
  writes (trace (run (store (fun _ _ => -1)) StopHostapd
                   {[ "ro.product.name" := "phone" ]})) = [] /\
  result (run (store (fun _ _ => -1)) StopHostapd
            {[ "ro.product.name" := "phone" ]}) = true /\
  final (run (store (fun _ _ => -1)) StopHostapd
           {[ "ro.product.name" := "phone" ]})
    = {[ "ro.product.name" := "phone" ]}.
Proof.
  split; [reflexivity|].
  apply (absent_status_property (fun _ _ => -1) {[ "ro.product.name" := "phone" ]}).
  reflexivity.
Defined.
